(** * LivroController: a shallow embedding of src/controller/LivroController.ts

    The controller has four static async handlers, [todos], [novo],
    [remover] and [atualizar].  Each one reads the Express request, calls one
    static method of the model class [Livro], and answers through
    [res.status(code).json(body)].  The embedding keeps that shape: handlers
    are computations in a small monad [Async] that threads the observable
    world (the model's store, the calls made to the model, the console and
    the response object) and has the three ways an [await] can end: a value,
    a thrown value, or a promise that never settles.  What is thrown may be
    any value, also one that the log line of a catch block cannot turn
    into text, and [res.json] throws on a value it cannot serialise. *)

From Stdlib Require Import ZArith NArith Ascii String List Lia.
From Stdlib Require Import DecimalString DecimalN.
From Stdlib Require Import Floats.SpecFloat.
From stdpp Require Import base option strings gmap.

Local Set Warnings "-register-all,-clear-no-such-hyp".
Local Open Scope string_scope.
Local Open Scope Z_scope.
Local Open Scope list_scope.

(** ** JavaScript values *)

Module JS.

(** A JavaScript Number is an IEEE 754 binary64 value; [spec_float] is the
    Standard Library's specification of those. *)
Definition JsNumber : Type := spec_float.

Definition prec : Z := 53.
Definition emax : Z := 1024.

Definition NaN : JsNumber := S754_nan.

(** The Number value of a mathematical integer, rounded to nearest, ties to
    even.  [negzero] chooses the sign of a zero result. *)
Definition Number_of_Z (negzero : bool) (z : Z) : JsNumber :=
  binary_normalize prec emax z 0 negzero.

Definition Number (z : Z) : JsNumber := Number_of_Z false z.

(** The mathematical value of a Number that is an integer. *)
Definition integer_value (n : JsNumber) : option Z :=
  match n with
  | S754_zero _ => Some 0
  | S754_finite s m e =>
      match e with
      | Zneg p =>
          if (Z.pos m mod 2 ^ Z.pos p =? 0)
          then Some (cond_Zopp s (Z.pos m / 2 ^ Z.pos p)) else None
      | _ => Some (cond_Zopp s (Z.pos m * 2 ^ e))
      end
  | _ => None
  end.

Definition is_NaN (n : JsNumber) : bool :=
  match n with S754_nan => true | _ => false end.

(** Values as they travel through the controller: what [JSON.parse] puts in
    [req.body], what the model resolves with, and what [res.json] is given.
    An object keeps its properties in insertion order, the order in which
    [JSON.stringify] writes them.  A BigInt, which a database driver can
    hand back for a 64-bit column, is the value of this type that
    [JSON.stringify] refuses; the other values it refuses, cyclic objects,
    are not trees and stay outside the type. *)
Inductive JsValue : Type :=
  | JUndefined
  | JNull
  | JBool (b : bool)
  | JNum (n : JsNumber)
  | JStr (s : string)
  | JArr (items : list JsValue)
  | JObj (props : list (string * JsValue))
  | JBigInt (n : Z).

(** ToBoolean, the test of [if (x)]. *)
Definition truthy (v : JsValue) : bool :=
  match v with
  | JUndefined | JNull => false
  | JBool b => b
  | JNum (S754_zero _) | JNum S754_nan => false
  | JNum _ => true
  | JStr EmptyString => false
  | JStr _ => true
  | JArr _ | JObj _ => true
  | JBigInt n => negb (n =? 0)
  end.

Definition nullish (v : JsValue) : bool :=
  match v with
  | JUndefined | JNull => true
  | _ => false
  end.

(** Own property of an object, first binding of the key. *)
Fixpoint own_property (props : list (string * JsValue)) (k : string) : JsValue :=
  match props with
  | [] => JUndefined
  | (k', v) :: rest => if String.eqb k' k then v else own_property rest k
  end.

(** The value of [v.k] for a [v] that is neither [undefined] nor [null] and
    a key [k] that no built-in prototype defines (the nine field names of
    [LivroDTO] are such keys): only an object's own properties answer. *)
Definition property_of (v : JsValue) (k : string) : JsValue :=
  match v with
  | JObj props => own_property props k
  | _ => JUndefined
  end.

(** Whether [JSON.stringify] accepts the value: it throws a TypeError as
    soon as it meets a BigInt, at any depth. *)
Fixpoint serialisable (v : JsValue) : bool :=
  match v with
  | JBigInt _ => false
  | JArr items => forallb serialisable items
  | JObj props => forallb (fun kv => serialisable (snd kv)) props
  | _ => true
  end.

(** An Error object with its [name] and [message]. *)
Record JsError : Type := MkError { name : string; message : string }.

(** Error.prototype.toString, which a template literal applies to
    [${error}]. *)
Definition error_to_string (e : JsError) : string :=
  match name e, message e with
  | EmptyString, m => m
  | n, EmptyString => n
  | n, m => n +:+ ": " +:+ m
  end.

(** A thrown value.  [throw] accepts any value, and [catch] binds
    whatever was thrown: an Error object, another value that has a string
    form (a string, a number, a plain object), or a value whose conversion
    to a string itself throws [raised] (a Symbol and an object with a null
    prototype raise a TypeError, an object's own [toString] may raise
    anything). *)
Inductive Thrown : Type :=
  | ThrownError (e : JsError)
  | ThrownOther (text : string)
  | ThrownOpaque (raised : Thrown).

Coercion ThrownError : JsError >-> Thrown.

(** ToString of a thrown value, as the template literal [${error}]
    applies it: its text, or what the conversion throws. *)
Definition string_form (t : Thrown) : string + Thrown :=
  match t with
  | ThrownError e => inl (error_to_string e)
  | ThrownOther text => inl text
  | ThrownOpaque raised => inr raised
  end.

(** [throw Symbol()]: its conversion to a string raises a TypeError. *)
Definition thrown_Symbol : Thrown :=
  ThrownOpaque
    (ThrownError
       (MkError "TypeError" "Cannot convert a Symbol value to a string")).

(** The TypeError of [JSON.stringify] on a BigInt. *)
Definition TypeError_BigInt : JsError :=
  MkError "TypeError" "Do not know how to serialize a BigInt".

Definition type_of_nullish (v : JsValue) : string :=
  match v with JNull => "null" | _ => "undefined" end.

(** The TypeError of reading property [k] of [undefined] or [null]. *)
Definition TypeError_read (v : JsValue) (k : string) : JsError :=
  MkError "TypeError"
    ("Cannot read properties of " +:+ type_of_nullish v +:+
     " (reading '" +:+ k +:+ "')").

(** *** parseInt

    Strings are held as their UTF-8 bytes, as the source file holds its
    literals.  [parseInt(string)] with no radix: skip leading white space,
    take a sign, take a [0x]/[0X] prefix (radix 16) or else radix 10, read
    the longest run of digits, and answer NaN when that run is empty. *)

Definition code (c : ascii) : N := N_of_ascii c.

Definition is_ascii_white (c : ascii) : bool :=
  let n := code c in
  ((9 <=? n) && (n <=? 13) || (n =? 32))%N.

(** StrWhiteSpaceChar: TAB, LF, VT, FF, CR, SP and, in UTF-8, U+00A0,
    U+1680, U+2000..U+200A, U+2028, U+2029, U+202F, U+205F, U+3000 and
    U+FEFF. *)
Fixpoint trim_start (s : string) : string :=
  match s with
  | EmptyString => s
  | String c r =>
      if is_ascii_white c then trim_start r
      else
        match r with
        | String c1 r1 =>
            if ((code c =? 0xC2) && (code c1 =? 0xA0))%N then trim_start r1
            else
              match r1 with
              | String c2 r2 =>
                  let b0 := code c in
                  let b1 := code c1 in
                  let b2 := code c2 in
                  if ((b0 =? 0xE1) && (b1 =? 0x9A) && (b2 =? 0x80)
                      || (b0 =? 0xE2) && (b1 =? 0x80)
                         && ((0x80 <=? b2) && (b2 <=? 0x8A)
                             || (b2 =? 0xA8) || (b2 =? 0xA9) || (b2 =? 0xAF))
                      || (b0 =? 0xE2) && (b1 =? 0x81) && (b2 =? 0x9F)
                      || (b0 =? 0xE3) && (b1 =? 0x80) && (b2 =? 0x80)
                      || (b0 =? 0xEF) && (b1 =? 0xBB) && (b2 =? 0xBF))%N
                  then trim_start r2
                  else s
              | EmptyString => s
              end
        | EmptyString => s
        end
  end.

(** The value of a character as a digit, in any radix up to 16. *)
Definition digit_value (c : ascii) : option N :=
  let n := code c in
  if ((48 <=? n) && (n <=? 57))%N then Some (n - 48)%N
  else if ((97 <=? n) && (n <=? 102))%N then Some (n - 87)%N
  else if ((65 <=? n) && (n <=? 70))%N then Some (n - 55)%N
  else None.

(** The longest prefix of [s] made of radix-[R] digits, as digit values. *)
Fixpoint leading_digits (R : N) (s : string) : list N :=
  match s with
  | EmptyString => []
  | String c r =>
      match digit_value c with
      | Some d => if (d <? R)%N then d :: leading_digits R r else []
      | None => []
      end
  end.

Definition digits_value (R : N) (ds : list N) : N :=
  fold_left (fun acc d => acc * R + d)%N ds 0%N.

Definition strip_sign (s : string) : bool * string :=
  match s with
  | String "-" r => (true, r)
  | String "+" r => (false, r)
  | _ => (false, s)
  end.

Definition strip_hex_prefix (s : string) : N * string :=
  match s with
  | String "0" (String "x" r) => (16%N, r)
  | String "0" (String "X" r) => (16%N, r)
  | _ => (10%N, s)
  end.

Definition parseInt_string (input : string) : JsNumber :=
  let '(negative, s1) := strip_sign (trim_start input) in
  let '(R, s2) := strip_hex_prefix s1 in
  match leading_digits R s2 with
  | [] => NaN
  | ds =>
      let mathInt := Z.of_N (digits_value R ds) in
      Number_of_Z negative (if negative then - mathInt else mathInt)
  end.

(** [parseInt(x)] first applies ToString to [x]; a parameter that is not
    bound reads as [undefined], whose string is "undefined". *)
Definition ToString_param (x : option string) : string :=
  match x with
  | Some s => s
  | None => "undefined"
  end.

Definition parseInt (x : option string) : JsNumber :=
  parseInt_string (ToString_param x).

End JS.

Import JS.


(** ** The Express request and response *)

Module Express.

(** [req.body] is whatever the body parser left there ([undefined] when
    nothing was parsed); [req.params] maps the names of the route's path
    parameters to the text matched in the URL. *)
Record Request : Type := MkRequest {
  body : JsValue;
  params : gmap string string
}.

(** The response object: the status code set so far (200 until
    [res.status] changes it) and the responses sent through [res.json], in
    order, each with the status code it went out with. *)
Record Response : Type := MkResponse {
  statusCode : Z;
  sent : list (Z * JsValue)
}.

Definition fresh : Response := MkResponse 200 [].

Definition status (c : Z) (r : Response) : Response :=
  MkResponse c (sent r).

Definition json (b : JsValue) (r : Response) : Response :=
  MkResponse (statusCode r) (sent r ++ [(statusCode r, b)]).

End Express.

Import Express.

(** ** The model class [Livro] *)

(** Modelled from the spec: the class [Livro] of ../model/Livro, which the
    controller imports and whose file is not part of the sources read here.
    The spec's BookEntity has the nine fields of the DTO plus an optional
    identifier, absent on a freshly constructed object and supplied by the
    caller on update.  The TypeScript field types are erased at run time
    and the controller checks nothing, so a field holds any value. *)
Record Livro : Type := MkLivro {
  idLivro : option JsNumber;
  titulo : JsValue;
  autor : JsValue;
  anoPublicacao : JsValue;
  editora : JsValue;
  isbn : JsValue;
  quantTotal : JsValue;
  quantDisponivel : JsValue;
  valorAquisicao : JsValue;
  statusLivroEmprestado : JsValue
}.

(** Modelled from the spec: the constructor [new Livro(...)] with its nine
    arguments; it sets no identifier. *)
Definition new_Livro (t a ano ed i qt qd va st : JsValue) : Livro :=
  MkLivro None t a ano ed i qt qd va st.

(** Modelled from the spec: the setter [setIdLivro], which supplies the
    identifier. *)
Definition setIdLivro (id : JsNumber) (l : Livro) : Livro :=
  MkLivro (Some id) (titulo l) (autor l) (anoPublicacao l) (editora l)
          (isbn l) (quantTotal l) (quantDisponivel l) (valorAquisicao l)
          (statusLivroEmprestado l).

(** ** Asynchronous computations *)

(** How an awaited promise, or an async function, ends. *)
Inductive Completion (A : Type) : Type :=
  | Fulfilled (a : A)
  | Rejected (e : Thrown)
  | Pending.

Arguments Fulfilled {A} a.
Arguments Rejected {A} e.
Arguments Pending {A}.

(** The static methods of [Livro] that the controller calls.  Their code is
    the model's; here they are an interface over the model's own store: a
    call answers with a value, throws, or never settles, and may change the
    store. *)
Class LivroModel (Store : Type) : Type := {
  listagemLivros : Store -> Completion JsValue * Store;
  cadastroLivro : Livro -> Store -> Completion JsValue * Store;
  removerLivro : JsNumber -> Store -> Completion JsValue * Store;
  atualizarLivro : Livro -> Store -> Completion JsValue * Store
}.

(** A call made to the model, with its argument. *)
Inductive ModelCall : Type :=
  | Call_listagemLivros
  | Call_cadastroLivro (l : Livro)
  | Call_removerLivro (id : JsNumber)
  | Call_atualizarLivro (l : Livro).

(** What a handler can change: the model's store, the record of the calls
    made to the model, the lines written by [console.log], and [res]. *)
Record World (Store : Type) : Type := MkWorld {
  store : Store;
  calls : list ModelCall;
  console : list string;
  res : Response
}.

Arguments MkWorld {Store} _ _ _ _.
Arguments store {Store} _.
Arguments calls {Store} _.
Arguments console {Store} _.
Arguments res {Store} _.

Definition Async (Store A : Type) : Type :=
  World Store -> Completion A * World Store.

Section Monad.
Context {Store : Type}.

Definition async_return {A} (a : A) : Async Store A :=
  fun w => (Fulfilled a, w).

(** Sequencing: what follows a statement runs only when the statement
    completes normally. *)
Definition async_bind {A B} (k : A -> Async Store B) (m : Async Store A)
  : Async Store B :=
  fun w =>
    match m w with
    | (Fulfilled a, w') => k a w'
    | (Rejected e, w') => (Rejected e, w')
    | (Pending, w') => (Pending, w')
    end.

Definition throw {A} (e : Thrown) : Async Store A :=
  fun w => (Rejected e, w).

(** [try { block } catch (error) { handler }] *)
Definition try_catch {A} (block : Async Store A)
           (handler : Thrown -> Async Store A) : Async Store A :=
  fun w =>
    match block w with
    | (Rejected e, w') => handler e w'
    | other => other
    end.

#[global] Instance Async_ret : MRet (Async Store) := @async_return.
#[global] Instance Async_bind : MBind (Async Store) := @async_bind.

(** [console.log(line)] *)
Definition console_log (line : string) : Async Store unit :=
  fun w =>
    (Fulfilled tt,
     MkWorld (store w) (calls w) (console w ++ [line]) (res w)).

(** [res.status(c)] *)
Definition res_status (c : Z) : Async Store unit :=
  fun w =>
    (Fulfilled tt,
     MkWorld (store w) (calls w) (console w) (status c (res w))).

(** [res.json(b)]: Express serialises [b] with [JSON.stringify] before it
    sends anything, so a value that cannot be serialised throws and
    nothing is sent. *)
Definition res_json (b : JsValue) : Async Store unit :=
  fun w =>
    if serialisable b then
      (Fulfilled tt,
       MkWorld (store w) (calls w) (console w) (json b (res w)))
    else (Rejected TypeError_BigInt, w).

(** [${error}] inside a template literal: the text of [error], or the
    throw of its conversion. *)
Definition ToString (error : Thrown) : Async Store string :=
  match string_form error with
  | inl text => mret text
  | inr raised => throw raised
  end.

(** [v.k]: a TypeError when [v] is [undefined] or [null]. *)
Definition get (v : JsValue) (k : string) : Async Store JsValue :=
  if nullish v then throw (TypeError_read v k)
  else mret (property_of v k).

(** [await Livro.method(args)]: the call is recorded, the model runs on
    its store. *)
Definition await (c : ModelCall)
           (method : Store -> Completion JsValue * Store)
  : Async Store JsValue :=
  fun w =>
    let '(answer, s') := method (store w) in
    (answer, MkWorld s' (calls w ++ [c]) (console w) (res w)).
End Monad.

(** ** The controller *)

Module LivroController.
Section Handlers.
Context {Store : Type} {model : LivroModel Store}.

(** The object literal [{ mensagem: text }]. *)
Definition mensagem (text : string) : JsValue :=
  JObj [("mensagem", JStr text)].

(** Reads the nine fields of [livroRecebido] in the order the constructor
    call evaluates its arguments, and builds the object. *)
Definition Livro_from (livroRecebido : JsValue) : Async Store Livro :=
  t ← get livroRecebido "titulo";
  a ← get livroRecebido "autor";
  ano ← get livroRecebido "anoPublicacao";
  ed ← get livroRecebido "editora";
  i ← get livroRecebido "isbn";
  qt ← get livroRecebido "quantTotal";
  qd ← get livroRecebido "quantDisponivel";
  va ← get livroRecebido "valorAquisicao";
  st ← get livroRecebido "statusLivroEmprestado";
  mret (new_Livro t a ano ed i qt qd va st).

Definition todos (req : Request) : Async Store unit :=
  try_catch
    (listaDeLivros ← await Call_listagemLivros listagemLivros;
     res_status 200;;
     res_json listaDeLivros)
    (fun error =>
       console_log "Erro ao acessar listagem de livros";;
       res_status 400;;
       res_json (mensagem "Não foi possível acessar a listagem de livros")).

Definition novo (req : Request) : Async Store unit :=
  try_catch
    (let livroRecebido := body req in
     novoLivro ← Livro_from livroRecebido;
     repostaClasse ← await (Call_cadastroLivro novoLivro)
                           (cadastroLivro novoLivro);
     if truthy repostaClasse then
       res_status 200;;
       res_json (mensagem "Livro cadastrado com sucesso!")
     else
       res_status 400;;
       res_json (mensagem "Erro ao cadastrar o livro. Entre em contato com o administrador do sistema."))
    (fun error =>
       text ← ToString error;
       console_log ("Erro ao cadastrar um livro. " +:+ text);;
       res_status 400;;
       res_json (mensagem "Não foi possível cadastrar o livro. Entre em contato com o administrador do sistema.")).

Definition remover (req : Request) : Async Store unit :=
  try_catch
    (let idlivro := parseInt (params req !! "idlivro") in
     respostaModelo ← await (Call_removerLivro idlivro)
                            (removerLivro idlivro);
     if truthy respostaModelo then
       res_status 200;;
       res_json (mensagem "O livro foi removido com sucesso!")
     else
       res_status 400;;
       res_json (mensagem "Erro ao remover o livro. Entre em contato com o administrador do sistema."))
    (fun error =>
       text ← ToString error;
       console_log ("Erro ao remover um livro. " +:+ text);;
       res_status 400;;
       res_json (mensagem "Não foi possível remover o livro. Entre em contato com o administrador do sistema.")).

Definition atualizar (req : Request) : Async Store unit :=
  try_catch
    (let livroRecebido := body req in
     let idlivroRecebido := parseInt (params req !! "idLivro") in
     novoLivro ← Livro_from livroRecebido;
     let LivroAtualizado := setIdLivro idlivroRecebido novoLivro in
     respostaModelo ← await (Call_atualizarLivro LivroAtualizado)
                            (atualizarLivro LivroAtualizado);
     if truthy respostaModelo then
       res_status 200;;
       res_json (mensagem "O Livro foi atualizado com sucesso!")
     else
       res_status 400;;
       res_json (mensagem "Erro ao atualizar o Livro. Entre em contato com o administrador do sistema"))
    (fun error =>
       text ← ToString error;
       console_log ("Erro ao atualizar um livro. " +:+ text);;
       res_status 400;;
       res_json (mensagem "Não foi possivel atualizar o livro.Entre em contato com o administrador do sistema")).
End Handlers.
End LivroController.

Import LivroController.

(** ** Observing one invocation *)

(** The four handlers of the class, by name. *)
Inductive Operation : Type := Todos | Novo | Remover | Atualizar.

Section Observations.
Context {Store : Type} {model : LivroModel Store}.

Definition handler (op : Operation) : Request -> Async Store unit :=
  match op with
  | Todos => todos
  | Novo => novo
  | Remover => remover
  | Atualizar => atualizar
  end.

(** How the invocation ends: [Fulfilled] when the handler returns,
    [Rejected] when an error leaves it, [Pending] when it never resumes. *)
Definition completion_of (m : Async Store unit) (w : World Store)
  : Completion unit :=
  fst (m w).

(** The responses sent during the invocation. *)
Definition responses_of (m : Async Store unit) (w : World Store)
  : list (Z * JsValue) :=
  drop (length (sent (res w))) (sent (res (snd (m w)))).

(** The calls made to the model during the invocation. *)
Definition calls_of (m : Async Store unit) (w : World Store)
  : list ModelCall :=
  drop (length (calls w)) (calls (snd (m w))).

(** The object [new Livro(b.titulo, ..., b.statusLivroEmprestado)] for a
    body [b] whose properties can be read. *)
Definition entity_of (b : JsValue) : Livro :=
  new_Livro (property_of b "titulo") (property_of b "autor")
            (property_of b "anoPublicacao") (property_of b "editora")
            (property_of b "isbn") (property_of b "quantTotal")
            (property_of b "quantDisponivel")
            (property_of b "valorAquisicao")
            (property_of b "statusLivroEmprestado").

End Observations.

(** A body is an object with exactly one property, named [key], holding a
    string. *)
Definition single_key_object (key : string) (b : JsValue) : Prop :=
  exists text, b = JObj [(key, JStr text)].

(** A model for trying the handlers out: its store holds the answer that
    every method gives next, and no call changes it. *)
Definition scripted : LivroModel (Completion JsValue) :=
  {| listagemLivros := fun s => (s, s);
     cadastroLivro := fun _ s => (s, s);
     removerLivro := fun _ s => (s, s);
     atualizarLivro := fun _ s => (s, s) |}.

Definition world_answering (answer : Completion JsValue)
  : World (Completion JsValue) :=
  MkWorld answer [] [] fresh.

(** The body of the spec's example, [acquisitionValue] 10.5 being 21/2,
    with an identifier-like property added. *)
Definition sample_body : JsValue :=
  JObj [("titulo", JStr "A"); ("autor", JStr "B");
        ("anoPublicacao", JStr "2020"); ("editora", JStr "C");
        ("isbn", JStr "123"); ("quantTotal", JNum (Number 2));
        ("quantDisponivel", JNum (Number 2));
        ("valorAquisicao", JNum (binary_normalize prec emax 21 (-1) false));
        ("statusLivroEmprestado", JStr "none");
        ("idLivro", JNum (Number 99))].

Definition db_down : JsError := MkError "Error" "connect ECONNREFUSED".

(** ** Further observations *)

Section MoreObservations.
Context {Store : Type} {model : LivroModel Store}.

(** The lines written to the console during the invocation. *)
Definition console_of (m : Async Store unit) (w : World Store)
  : list string :=
  drop (length (console w)) (console (snd (m w))).

(** The answer of the model to the call a handler makes for a request, and
    the store the call leaves; none when the body cannot be read, for then
    [novo] and [atualizar] stop before the call. *)
Definition model_answer (op : Operation) (req : Request) (w : World Store)
  : option (Completion JsValue * Store) :=
  match op with
  | Todos => Some (listagemLivros (store w))
  | Novo =>
      if nullish (body req) then None
      else Some (cadastroLivro (entity_of (body req)) (store w))
  | Remover =>
      Some (removerLivro (parseInt (params req !! "idlivro")) (store w))
  | Atualizar =>
      if nullish (body req) then None
      else Some (atualizarLivro
                   (setIdLivro (parseInt (params req !! "idLivro"))
                               (entity_of (body req)))
                   (store w))
  end.
End MoreObservations.








(** * Properties *)

(** ** [parseInt] on sample texts *)

Example parseInt_decimal :
  parseInt (Some "3") = Number 3
  /\ integer_value (parseInt (Some "7")) = Some 7
  /\ integer_value (parseInt (Some "  -42")) = Some (-42)
  /\ integer_value (parseInt (Some "12px")) = Some 12.
Proof. repeat split. Qed.

Example parseInt_hexadecimal :
  integer_value (parseInt (Some "0x1F")) = Some 31
  /\ integer_value (parseInt (Some "-0Xff")) = Some (-255).
Proof. repeat split. Qed.

Example parseInt_without_digits :
  parseInt (Some "abc") = NaN
  /\ parseInt (Some "") = NaN
  /\ parseInt (Some "-") = NaN
  /\ parseInt (Some "0x") = NaN
  /\ parseInt None = NaN.
Proof. repeat split. Qed.

Example parseInt_rounds_to_binary64 :
  integer_value (parseInt (Some "9007199254740993")) = Some 9007199254740992
  /\ parseInt (Some "-0") = S754_zero true.
Proof. repeat split. Qed.

(** ** Runs of the handlers *)

Section Runs.
Context {Store : Type} {model : LivroModel Store}.

Lemma Livro_from_nullish (b : JsValue) (w : World Store) :
  nullish b = true ->
  Livro_from b w = (Rejected (TypeError_read b "titulo"), w).
Proof.
  intros Hb. unfold Livro_from, get, mbind, Async_bind, async_bind.
  rewrite Hb. reflexivity.
Qed.

Lemma Livro_from_readable (b : JsValue) (w : World Store) :
  nullish b = false ->
  Livro_from b w = (Fulfilled (entity_of b), w).
Proof.
  intros Hb. unfold Livro_from, get, mbind, Async_bind, async_bind.
  rewrite Hb. reflexivity.
Qed.
End Runs.


Lemma drop_appended {A} (l new : list A) : drop (length l) (l ++ new) = new.
Proof. apply drop_app_length. Qed.

Lemma drop_nothing_new {A} (l : list A) : drop (length l) l = [].
Proof. apply drop_all. Qed.

(** Unfolds one invocation down to the model's answer. *)
Ltac unfold_run :=
  unfold completion_of, responses_of, calls_of, handler,
    todos, novo, remover, atualizar, try_catch, await,
    console_log, res_status, res_json, ToString, throw, json, status;
  unfold mbind, mret, Async_bind, Async_ret, async_bind, async_return.

(** Reduces the parts of a run that are known. *)
Ltac run_cbn :=
  cbn [fst snd store calls console res sent statusCode
       serialisable mensagem forallb andb string_form].

(** Case analysis on the body, on the model's answer and on its truth. *)
Ltac by_cases_on_body b w :=
  destruct (nullish b) eqn:?;
  [ rewrite (Livro_from_nullish b w) by assumption
  | rewrite (Livro_from_readable b w) by assumption ].

Ltac by_cases_on_answer :=
  match goal with
  | |- context [ cadastroLivro ?l ?s ] =>
      destruct (cadastroLivro l s) as [[?v|?e|] ?s'] eqn:?
  | |- context [ removerLivro ?i ?s ] =>
      destruct (removerLivro i s) as [[?v|?e|] ?s'] eqn:?
  | |- context [ atualizarLivro ?l ?s ] =>
      destruct (atualizarLivro l s) as [[?v|?e|] ?s'] eqn:?
  | |- context [ listagemLivros ?s ] =>
      destruct (listagemLivros s) as [[?v|?e|] ?s'] eqn:?
  end;
  run_cbn;
  try match goal with
      | |- context [ truthy ?v ] => destruct (truthy v) eqn:?
      | |- context [ serialisable ?v ] => destruct (serialisable v) eqn:?
      | |- context [ string_form ?e ] => destruct e as [?err|?text|?raised]
      end;
  run_cbn.

(** Closes a goal about the responses sent when they are none, or one whose
    body is a [mensagem] object. *)
Ltac sent_mensagem :=
  try (rewrite ?drop_appended, ?drop_nothing_new;
       first [ apply List.Forall_nil
             | apply List.Forall_cons;
               [ left; eexists; reflexivity | apply List.Forall_nil ] ]).

(** Runs one invocation under the hypotheses at hand: a readable or
    unreadable body, the model's answer, its truth. *)
Ltac run_given :=
  unfold_run;
  repeat match goal with
         | Hb : nullish ?b = true |- context [ Livro_from ?b ?w ] =>
             rewrite (Livro_from_nullish b w Hb)
         | Hb : nullish ?b = false |- context [ Livro_from ?b ?w ] =>
             rewrite (Livro_from_readable b w Hb)
         end;
  repeat match goal with
         | Hp : ?o = Some _ |- _ => rewrite Hp
         | Hp : ?o = None |- _ => rewrite Hp
         end;
  repeat match goal with
         | E : ?call = (_, _) |- _ => rewrite E
         end;
  run_cbn;
  repeat match goal with
         | E : truthy _ = _ |- _ => rewrite E
         end;
  run_cbn;
  rewrite ?drop_appended, ?drop_nothing_new.

Section Contract.
Context {Store : Type} {model : LivroModel Store}.
Implicit Types (req : Request) (w : World Store) (op : Operation).

Lemma todos_run req w :
  todos req w =
  match listagemLivros (store w) with
  | (Fulfilled v, s') =>
      if serialisable v then
        (Fulfilled tt,
         MkWorld s' (calls w ++ [Call_listagemLivros]) (console w)
                 (MkResponse 200 (sent (res w) ++ [(200, v)])))
      else
        (Fulfilled tt,
         MkWorld s' (calls w ++ [Call_listagemLivros])
                 (console w ++ ["Erro ao acessar listagem de livros"])
                 (MkResponse 400
                    (sent (res w) ++
                     [(400, mensagem "Não foi possível acessar a listagem de livros")])))
  | (Rejected e, s') =>
      (Fulfilled tt,
       MkWorld s' (calls w ++ [Call_listagemLivros])
               (console w ++ ["Erro ao acessar listagem de livros"])
               (MkResponse 400
                  (sent (res w) ++
                   [(400, mensagem "Não foi possível acessar a listagem de livros")])))
  | (Pending, s') =>
      (Pending,
       MkWorld s' (calls w ++ [Call_listagemLivros]) (console w) (res w))
  end.
Proof. unfold_run. by_cases_on_answer; reflexivity. Qed.

(** C1: the code breaks the claim.  When the model throws a value whose
    conversion to a string throws (a Symbol, an object with a null
    prototype), the catch block of [novo], [remover] or [atualizar] fails
    at its log line, before [res.status(400)]: the handler's promise is
    rejected with what the conversion threw, nothing is written to the
    console and no response is sent. *)
Theorem unprintable_throw_leaves_request_unanswered op req w raised s' :
  op <> Todos ->
  model_answer op req w = Some (Rejected (ThrownOpaque raised), s') ->
  completion_of (handler op req) w = Rejected raised
  /\ responses_of (handler op req) w = []
  /\ console_of (handler op req) w = [].
Proof.
  intros Hop. unfold model_answer, console_of.
  destruct op; [contradiction | ..];
    try (destruct (nullish (body req)) eqn:Hb; [discriminate |]);
    intros [= E]; run_given; repeat split; apply drop_nothing_new.
Qed.

(** C2, as amended: every body sent by a handler is an object with the
    single key [mensagem] holding a string, except the 200 of [todos],
    whose body is the very value the model resolved with, unwrapped (a
    value that [res.json] cannot serialise is answered from the catch
    block, with the [mensagem] object of the failed listing). *)
Theorem bodies_are_mensagem_objects op req w :
  Forall
    (fun r =>
       single_key_object "mensagem" r.2
       \/ (op = Todos /\ r.1 = 200
           /\ exists s', listagemLivros (store w) = (Fulfilled r.2, s')))
    (responses_of (handler op req) w)
  /\ (forall v s', listagemLivros (store w) = (Fulfilled v, s') ->
                   map snd (responses_of (todos req) w) =
                   [if serialisable v then v
                    else mensagem "Não foi possível acessar a listagem de livros"]).
Proof.
  split;
    [| intros v s' E; unfold responses_of; rewrite todos_run, E;
       destruct (serialisable v); cbn [snd res sent];
       rewrite drop_appended; reflexivity].
  destruct op; unfold_run.
  - by_cases_on_answer; sent_mensagem.
    rewrite drop_appended.
    apply List.Forall_cons; [right; cbn; eauto | apply List.Forall_nil].
  - by_cases_on_body (body req) w; [cbn; sent_mensagem |].
    by_cases_on_answer; sent_mensagem.
  - by_cases_on_answer; sent_mensagem.
  - by_cases_on_body (body req) w; [cbn; sent_mensagem |].
    by_cases_on_answer; sent_mensagem.
Qed.

(** C6, as amended: when the model resolves with the empty array,
    [todos] answers 200 with body [[]]; when it throws, whatever the
    error, [todos] answers 400 with the body
    [{ mensagem: "Não foi possível acessar a listagem de livros" }]. *)
Theorem todos_empty_and_failure req w :
  (forall s', listagemLivros (store w) = (Fulfilled (JArr []), s') ->
              responses_of (todos req) w = [(200, JArr [])])
  /\ (forall e s', listagemLivros (store w) = (Rejected e, s') ->
                   responses_of (todos req) w =
                   [(400, JObj [("mensagem",
                                 JStr "Não foi possível acessar a listagem de livros")])]).
Proof.
  split; intros; unfold responses_of; rewrite todos_run;
    match goal with E : listagemLivros _ = _ |- _ => rewrite E end;
    cbn [serialisable forallb]; apply drop_appended.
Qed.

(** C9, as amended: [todos] has no branch for a false answer: whatever
    value the model resolves with that [res.json] can serialise, [null],
    [undefined] and non-arrays included, the response is 200 with that
    value as its body.  A 400 is sent only when the call threw or when
    [res.json] threw on the resolved value, and then with the body of the
    catch block. *)
Theorem todos_no_falsy_branch req w :
  (forall v s', listagemLivros (store w) = (Fulfilled v, s') ->
                serialisable v = true ->
                responses_of (todos req) w = [(200, v)])
  /\ (forall v s', listagemLivros (store w) = (Fulfilled v, s') ->
                   serialisable v = false ->
                   responses_of (todos req) w =
                   [(400, mensagem "Não foi possível acessar a listagem de livros")])
  /\ (forall b, In (400, b) (responses_of (todos req) w) ->
                (exists e s', listagemLivros (store w) = (Rejected e, s'))
                \/ (exists v s',
                       listagemLivros (store w) = (Fulfilled v, s')
                       /\ serialisable v = false)).
Proof.
  split; [| split].
  - intros v s' E Hv. unfold responses_of. rewrite todos_run, E, Hv.
    apply drop_appended.
  - intros v s' E Hv. unfold responses_of. rewrite todos_run, E, Hv.
    apply drop_appended.
  - intros b. unfold responses_of. rewrite todos_run.
    destruct (listagemLivros (store w)) as [[v|e|] s'];
      [destruct (serialisable v) eqn:Hv | |];
      cbn [snd res sent];
      rewrite ?drop_appended, ?drop_nothing_new; cbn.
    + intros [[=] | []].
    + eauto 6.
    + eauto.
    + intros [].
Qed.

(** What [remover] and [atualizar] hand to the model. *)
Lemma remover_calls req w :
  calls_of (remover req) w =
  [Call_removerLivro (parseInt (params req !! "idlivro"))].
Proof.
  unfold_run. by_cases_on_answer; apply drop_appended.
Qed.


Lemma novo_calls req w :
  nullish (body req) = false ->
  calls_of (novo req) w = [Call_cadastroLivro (entity_of (body req))].
Proof.
  intros Hb. unfold_run. rewrite (Livro_from_readable _ _ Hb).
  by_cases_on_answer; apply drop_appended.
Qed.



(** C7: every response sent by any handler, for any request and any
    answer of the model, has status 200 or 400, never 404; a false
    answer of the model (a book that was not found, say) gives 400. *)
Theorem status_is_200_or_400 op req w :
  Forall (fun r => r.1 = 200 \/ r.1 = 400)
         (responses_of (handler op req) w)
  /\ (forall v s',
        removerLivro (parseInt (params req !! "idlivro")) (store w)
        = (Fulfilled v, s') ->
        truthy v = false ->
        map fst (responses_of (remover req) w) = [400])
  /\ (forall v s',
        nullish (body req) = false ->
        atualizarLivro
          (setIdLivro (parseInt (params req !! "idLivro"))
                      (entity_of (body req))) (store w)
        = (Fulfilled v, s') ->
        truthy v = false ->
        map fst (responses_of (atualizar req) w) = [400])
  /\ (forall v s',
        nullish (body req) = false ->
        cadastroLivro (entity_of (body req)) (store w)
        = (Fulfilled v, s') ->
        truthy v = false ->
        map fst (responses_of (novo req) w) = [400]).
Proof.
  split.
  { destruct op; unfold_run;
      try (by_cases_on_body (body req) w;
           [cbn; rewrite drop_appended;
            apply List.Forall_cons; [auto | apply List.Forall_nil] |]);
      by_cases_on_answer;
      rewrite ?drop_appended, ?drop_nothing_new;
      first [ apply List.Forall_nil
            | apply List.Forall_cons; [cbn; auto | apply List.Forall_nil] ]. }
  repeat split; intros; run_given; reflexivity.
Qed.


End Contract.

(** * The contract on concrete invocations *)

(** C1 at a delete whose model throws a Symbol. *)
Lemma unprintable_throw_leaves_request_unanswered_witness :
  completion_of (remover (model:=scripted)
                   (MkRequest JUndefined {[ "idlivro" := "7" ]}))
                (world_answering (Rejected thrown_Symbol))
  = Rejected (MkError "TypeError" "Cannot convert a Symbol value to a string")
  /\ responses_of (remover (model:=scripted)
                     (MkRequest JUndefined {[ "idlivro" := "7" ]}))
                  (world_answering (Rejected thrown_Symbol))
     = [].
Proof.
  destruct (unprintable_throw_leaves_request_unanswered (model:=scripted)
              Remover
              (MkRequest JUndefined {[ "idlivro" := "7" ]})
              (world_answering (Rejected thrown_Symbol))
              (MkError "TypeError" "Cannot convert a Symbol value to a string")
              (Rejected thrown_Symbol))
    as (Hrejected & Hnone & _); [discriminate | reflexivity |].
  split; [exact Hrejected | exact Hnone].
Defined.

(** C2 as stated fails: the 200 of a successful create has a body whose
    key is [mensagem], not [message]. *)
Lemma message_key_counterexample :
  exists r,
    In r (responses_of (novo (model:=scripted) (MkRequest sample_body ∅))
                       (world_answering (Fulfilled (JBool true))))
    /\ ~ single_key_object "message" r.2.
Proof.
  exists (200, mensagem "Livro cadastrado com sucesso!"). split.
  - vm_compute. left. reflexivity.
  - intros [text Ht]. discriminate Ht.
Qed.

(** C2, as amended, at a listing that resolves with an array of one book:
    the body sent is that array itself. *)
Lemma bodies_are_mensagem_objects_witness :
  map snd (responses_of (todos (model:=scripted) (MkRequest JUndefined ∅))
                        (world_answering (Fulfilled (JArr [sample_body]))))
  = [JArr [sample_body]].
Proof.
  destruct (bodies_are_mensagem_objects (model:=scripted) Todos
              (MkRequest JUndefined ∅)
              (world_answering (Fulfilled (JArr [sample_body]))))
    as [_ Hraw].
  apply (Hraw (JArr [sample_body]) (Fulfilled (JArr [sample_body]))).
  reflexivity.
Defined.

(** C3: the code breaks the claim.  At a create request with the spec's
    example body whose model throws a Symbol, [novo] has a fourth outcome:
    [cadastroLivro] was called, the catch block fails at its log line, the
    handler's promise is rejected with the TypeError of the conversion and
    no response is sent, neither the 400 of the catch block nor any
    other. *)
Theorem novo_fourth_outcome :
  calls_of (novo (model:=scripted) (MkRequest sample_body ∅))
           (world_answering (Rejected thrown_Symbol))
  = [Call_cadastroLivro (entity_of sample_body)]
  /\ completion_of (novo (model:=scripted) (MkRequest sample_body ∅))
                   (world_answering (Rejected thrown_Symbol))
     = Rejected (MkError "TypeError" "Cannot convert a Symbol value to a string")
  /\ responses_of (novo (model:=scripted) (MkRequest sample_body ∅))
                  (world_answering (Rejected thrown_Symbol))
     = [].
Proof.
  split; [apply novo_calls; reflexivity |].
  split; reflexivity.
Qed.


(** C5: the code breaks the claim in its last part.  At the path
    parameter "abc" NaN is passed on to [removerLivro] unchecked, as the
    claim says; but when the model then throws a Symbol, the error is not
    answered with the 400 of the catch block: the log line of the catch
    block throws, the handler's promise is rejected and no response is
    sent. *)
Theorem remover_NaN_throw_unanswered :
  calls_of (remover (model:=scripted)
              (MkRequest JUndefined {[ "idlivro" := "abc" ]}))
           (world_answering (Rejected thrown_Symbol))
  = [Call_removerLivro NaN]
  /\ completion_of (remover (model:=scripted)
                      (MkRequest JUndefined {[ "idlivro" := "abc" ]}))
                   (world_answering (Rejected thrown_Symbol))
     = Rejected (MkError "TypeError" "Cannot convert a Symbol value to a string")
  /\ responses_of (remover (model:=scripted)
                     (MkRequest JUndefined {[ "idlivro" := "abc" ]}))
                  (world_answering (Rejected thrown_Symbol))
     = [].
Proof.
  split; [rewrite remover_calls; reflexivity |].
  split; reflexivity.
Qed.

(** C6 as stated fails: when the model throws, the body sent is not
    [{"message":"Could not access the book listing"}]. *)
Lemma todos_failure_body_counterexample :
  @listagemLivros _ scripted (Rejected db_down)
  = (Rejected db_down, Rejected db_down)
  /\ responses_of (todos (model:=scripted) (MkRequest JUndefined ∅))
                  (world_answering (Rejected db_down))
     <> [(400, JObj [("message", JStr "Could not access the book listing")])].
Proof.
  split; [reflexivity |]. vm_compute. discriminate.
Qed.

(** C6, as amended, at a model that resolves with [[]] and at one that
    throws. *)
Lemma todos_empty_and_failure_witness :
  responses_of (todos (model:=scripted) (MkRequest JUndefined ∅))
               (world_answering (Fulfilled (JArr [])))
  = [(200, JArr [])]
  /\ responses_of (todos (model:=scripted) (MkRequest JUndefined ∅))
                  (world_answering (Rejected db_down))
     = [(400, JObj [("mensagem",
                     JStr "Não foi possível acessar a listagem de livros")])].
Proof.
  split.
  - destruct (todos_empty_and_failure (model:=scripted)
                (MkRequest JUndefined ∅)
                (world_answering (Fulfilled (JArr []))))
      as [Hempty _].
    apply (Hempty (Fulfilled (JArr []))). reflexivity.
  - destruct (todos_empty_and_failure (model:=scripted)
                (MkRequest JUndefined ∅)
                (world_answering (Rejected db_down)))
      as [_ Hthrown].
    apply (Hthrown db_down (Rejected db_down)). reflexivity.
Defined.

(** C7 at a delete and an update of a book the model does not find. *)
Lemma status_is_200_or_400_witness :
  map fst (responses_of
             (remover (model:=scripted)
                (MkRequest JUndefined {[ "idlivro" := "7" ]}))
             (world_answering (Fulfilled (JBool false))))
  = [400]
  /\ map fst (responses_of
                (atualizar (model:=scripted)
                   (MkRequest sample_body {[ "idLivro" := "7" ]}))
                (world_answering (Fulfilled (JBool false))))
     = [400].
Proof.
  split.
  - destruct (status_is_200_or_400 (model:=scripted) Remover
                (MkRequest JUndefined {[ "idlivro" := "7" ]})
                (world_answering (Fulfilled (JBool false))))
      as (_ & Hdel & _).
    apply (Hdel (JBool false) (Fulfilled (JBool false))); reflexivity.
  - destruct (status_is_200_or_400 (model:=scripted) Atualizar
                (MkRequest sample_body {[ "idLivro" := "7" ]})
                (world_answering (Fulfilled (JBool false))))
      as (_ & _ & Hupd & _).
    apply (Hupd (JBool false) (Fulfilled (JBool false))); reflexivity.
Defined.


(** C9 as stated fails: a listing that resolves with a row holding a
    BigInt is answered with the 400 of the catch block, although the call
    did not throw. *)
Lemma todos_unserialisable_counterexample :
  @listagemLivros _ scripted
     (Fulfilled (JArr [JObj [("idLivro", JBigInt 10)]]))
  = (Fulfilled (JArr [JObj [("idLivro", JBigInt 10)]]),
     Fulfilled (JArr [JObj [("idLivro", JBigInt 10)]]))
  /\ responses_of (todos (model:=scripted) (MkRequest JUndefined ∅))
                  (world_answering
                     (Fulfilled (JArr [JObj [("idLivro", JBigInt 10)]])))
     = [(400, mensagem "Não foi possível acessar a listagem de livros")]
  /\ responses_of (todos (model:=scripted) (MkRequest JUndefined ∅))
                  (world_answering
                     (Fulfilled (JArr [JObj [("idLivro", JBigInt 10)]])))
     <> [(200, JArr [JObj [("idLivro", JBigInt 10)]])].
Proof.
  split; [reflexivity |]. split; [reflexivity |].
  vm_compute. discriminate.
Qed.

(** C9, as amended, at a model that resolves with [null]. *)
Lemma todos_no_falsy_branch_witness :
  truthy JNull = false
  /\ responses_of (todos (model:=scripted) (MkRequest JUndefined ∅))
                  (world_answering (Fulfilled JNull))
     = [(200, JNull)].
Proof.
  split; [reflexivity |].
  destruct (todos_no_falsy_branch (model:=scripted)
              (MkRequest JUndefined ∅)
              (world_answering (Fulfilled JNull)))
    as [Hvalue _].
  apply (Hvalue JNull (Fulfilled JNull)); reflexivity.
Defined.


(** * Further properties *)

(** ** Numbers read by [parseInt] *)

















(** ** The handlers, beyond the contract *)

Section Beyond.
Context {Store : Type} {model : LivroModel Store}.
Implicit Types (req : Request) (w : World Store) (op : Operation).

(** X1: a handler returns exactly when it has sent one response, and
    otherwise has sent none.  It stays suspended exactly when the call to
    the model never settles.  Its promise is rejected exactly when [novo],
    [remover] or [atualizar] catch a thrown value whose conversion to a
    string throws, and then with what that conversion threw; an error
    never leaves [todos]. *)
Theorem completion_matches_responses op req w :
  (completion_of (handler op req) w = Fulfilled tt
   <-> exists r, responses_of (handler op req) w = [r])
  /\ (completion_of (handler op req) w <> Fulfilled tt ->
      responses_of (handler op req) w = [])
  /\ (completion_of (handler op req) w = Pending
      <-> exists s', model_answer op req w = Some (Pending, s'))
  /\ (forall raised,
        completion_of (handler op req) w = Rejected raised
        <-> op <> Todos
            /\ exists s',
                 model_answer op req w
                 = Some (Rejected (ThrownOpaque raised), s')).
Proof.
  unfold model_answer.
  destruct op; unfold_run;
    try (by_cases_on_body (body req) w);
    try by_cases_on_answer;
    run_cbn;
    rewrite ?drop_appended, ?drop_nothing_new;
    naive_solver.
Qed.

(** X2: with a body that is [undefined] or [null], [novo] and [atualizar]
    stop at the first field read: the model is not called and its store
    is untouched, the TypeError is written to the console after the
    handler's prefix, and the 400 of the catch block is sent.  [todos] and
    [remover], which read no body, call the model all the same. *)
Theorem unreadable_body_stops_before_model req w :
  nullish (body req) = true ->
  (calls_of (novo req) w = []
   /\ store (snd (novo req w)) = store w
   /\ console_of (novo req) w =
      ["Erro ao cadastrar um livro. " +:+
       error_to_string (TypeError_read (body req) "titulo")]
   /\ responses_of (novo req) w =
      [(400, mensagem "Não foi possível cadastrar o livro. Entre em contato com o administrador do sistema.")])
  /\ (calls_of (atualizar req) w = []
      /\ store (snd (atualizar req w)) = store w
      /\ console_of (atualizar req) w =
         ["Erro ao atualizar um livro. " +:+
          error_to_string (TypeError_read (body req) "titulo")]
      /\ responses_of (atualizar req) w =
         [(400, mensagem "Não foi possivel atualizar o livro.Entre em contato com o administrador do sistema")])
  /\ calls_of (todos req) w = [Call_listagemLivros]
  /\ calls_of (remover req) w =
     [Call_removerLivro (parseInt (params req !! "idlivro"))].
Proof.
  intros Hb.
  split; [| split; [| split; [| apply remover_calls]]].
  - unfold console_of. run_given. repeat split.
  - unfold console_of. run_given. repeat split.
  - unfold calls_of. rewrite todos_run.
    destruct (listagemLivros (store w)) as [[v|e|] s'];
      [destruct (serialisable v) | |]; apply drop_appended.
Qed.

(** X3: a handler makes at most one call to the model, to its own method,
    and leaves the model's store exactly as that call left it. *)
Theorem one_call_to_own_method op req w :
  match model_answer op req w with
  | Some (_, s') =>
      store (snd (handler op req w)) = s'
      /\ exists c,
           calls_of (handler op req) w = [c]
           /\ match op, c with
              | Todos, Call_listagemLivros
              | Novo, Call_cadastroLivro _
              | Remover, Call_removerLivro _
              | Atualizar, Call_atualizarLivro _ => True
              | _, _ => False
              end
  | None =>
      store (snd (handler op req w)) = store w
      /\ calls_of (handler op req) w = []
  end.
Proof.
  unfold model_answer.
  destruct op; unfold_run;
    try (by_cases_on_body (body req) w);
    try by_cases_on_answer;
    run_cbn;
    rewrite ?drop_appended, ?drop_nothing_new;
    (split; [reflexivity |]); first [reflexivity | eexists; split; [reflexivity | exact I]].
Qed.

(** X4: the outcomes of [remover].  A true answer of the model gives
    200 with the success message, a false one 400 with the message of the
    failed removal.  A thrown value that has a string form (an ordinary
    Error object has one) gives 400 with the message of the catch
    block; a thrown value whose conversion to a string throws gives no
    response at all, and the handler's promise is rejected.  The two 400
    messages differ and nothing else is ever sent. *)
Theorem remover_three_outcomes req w :
  let removed := (200, mensagem "O livro foi removido com sucesso!") in
  let refused :=
    (400, mensagem "Erro ao remover o livro. Entre em contato com o administrador do sistema.") in
  let failed :=
    (400, mensagem "Não foi possível remover o livro. Entre em contato com o administrador do sistema.") in
  (forall v s',
      model_answer Remover req w = Some (Fulfilled v, s') ->
      responses_of (remover req) w
      = [if truthy v then removed else refused])
  /\ (forall e s',
        model_answer Remover req w = Some (Rejected e, s') ->
        match string_form e with
        | inl _ =>
            responses_of (remover req) w = [failed]
            /\ completion_of (remover req) w = Fulfilled tt
        | inr raised =>
            responses_of (remover req) w = []
            /\ completion_of (remover req) w = Rejected raised
        end)
  /\ refused.2 <> failed.2
  /\ Forall (fun r => r = removed \/ r = refused \/ r = failed)
            (responses_of (remover req) w).
Proof.
  intros removed refused failed. unfold model_answer.
  split; [| split; [| split; [discriminate |]]].
  - try (destruct (nullish (body req)) eqn:Hb; [discriminate |]).
    intros v s' [= E]. run_given.
    destruct (truthy v); run_cbn; apply drop_appended.
  - try (destruct (nullish (body req)) eqn:Hb; [discriminate |]).
    intros e s' [= E]. run_given.
    destruct e as [err|text|raised]; run_cbn;
      rewrite ?drop_appended, ?drop_nothing_new; split; reflexivity.
  - unfold_run.
    try (by_cases_on_body (body req) w;
         [cbn; rewrite drop_appended;
          apply List.Forall_cons; [auto | apply List.Forall_nil] |]).
    by_cases_on_answer;
      rewrite ?drop_appended, ?drop_nothing_new;
      first [ apply List.Forall_nil
            | apply List.Forall_cons; [auto | apply List.Forall_nil] ].
Qed.

(** X5: the outcomes of [atualizar].  A true answer of the model gives
    200 with the success message, a false one 400 with the message of the
    failed update.  A thrown value that has a string form (an ordinary
    Error object has one), or a body that cannot be read, gives 400 with the message of the catch
    block; a thrown value whose conversion to a string throws gives no
    response at all, and the handler's promise is rejected.  The two 400
    messages differ and nothing else is ever sent. *)
Theorem atualizar_three_outcomes req w :
  let updated := (200, mensagem "O Livro foi atualizado com sucesso!") in
  let refused :=
    (400, mensagem "Erro ao atualizar o Livro. Entre em contato com o administrador do sistema") in
  let failed :=
    (400, mensagem "Não foi possivel atualizar o livro.Entre em contato com o administrador do sistema") in
  (forall v s',
      model_answer Atualizar req w = Some (Fulfilled v, s') ->
      responses_of (atualizar req) w
      = [if truthy v then updated else refused])
  /\ (forall e s',
        model_answer Atualizar req w = Some (Rejected e, s') ->
        match string_form e with
        | inl _ =>
            responses_of (atualizar req) w = [failed]
            /\ completion_of (atualizar req) w = Fulfilled tt
        | inr raised =>
            responses_of (atualizar req) w = []
            /\ completion_of (atualizar req) w = Rejected raised
        end)
  /\ (model_answer Atualizar req w = None ->
      responses_of (atualizar req) w = [failed])
  /\ refused.2 <> failed.2
  /\ Forall (fun r => r = updated \/ r = refused \/ r = failed)
            (responses_of (atualizar req) w).
Proof.
  intros updated refused failed. unfold model_answer.
  split; [| split; [| split; [| split; [discriminate |]]]].
  - try (destruct (nullish (body req)) eqn:Hb; [discriminate |]).
    intros v s' [= E]. run_given.
    destruct (truthy v); run_cbn; apply drop_appended.
  - try (destruct (nullish (body req)) eqn:Hb; [discriminate |]).
    intros e s' [= E]. run_given.
    destruct e as [err|text|raised]; run_cbn;
      rewrite ?drop_appended, ?drop_nothing_new; split; reflexivity.
  - first [ discriminate
          | destruct (nullish (body req)) eqn:Hb; [| discriminate];
            intros _; run_given; reflexivity ].
  - unfold_run.
    try (by_cases_on_body (body req) w;
         [cbn; rewrite drop_appended;
          apply List.Forall_cons; [auto | apply List.Forall_nil] |]).
    by_cases_on_answer;
      rewrite ?drop_appended, ?drop_nothing_new;
      first [ apply List.Forall_nil
            | apply List.Forall_cons; [auto | apply List.Forall_nil] ].
Qed.

(** X11: the outcomes of [novo].  A true answer of the model gives
    200 with the success message, a false one 400 with the message of the
    failed creation.  A thrown value that has a string form (an ordinary
    Error object has one), or a body that cannot be read, gives 400 with the message of the catch
    block; a thrown value whose conversion to a string throws gives no
    response at all, and the handler's promise is rejected.  The two 400
    messages differ and nothing else is ever sent. *)
Theorem novo_outcomes req w :
  let created := (200, mensagem "Livro cadastrado com sucesso!") in
  let refused :=
    (400, mensagem "Erro ao cadastrar o livro. Entre em contato com o administrador do sistema.") in
  let failed :=
    (400, mensagem "Não foi possível cadastrar o livro. Entre em contato com o administrador do sistema.") in
  (forall v s',
      model_answer Novo req w = Some (Fulfilled v, s') ->
      responses_of (novo req) w
      = [if truthy v then created else refused])
  /\ (forall e s',
        model_answer Novo req w = Some (Rejected e, s') ->
        match string_form e with
        | inl _ =>
            responses_of (novo req) w = [failed]
            /\ completion_of (novo req) w = Fulfilled tt
        | inr raised =>
            responses_of (novo req) w = []
            /\ completion_of (novo req) w = Rejected raised
        end)
  /\ (model_answer Novo req w = None ->
      responses_of (novo req) w = [failed])
  /\ refused.2 <> failed.2
  /\ Forall (fun r => r = created \/ r = refused \/ r = failed)
            (responses_of (novo req) w).
Proof.
  intros created refused failed. unfold model_answer.
  split; [| split; [| split; [| split; [discriminate |]]]].
  - try (destruct (nullish (body req)) eqn:Hb; [discriminate |]).
    intros v s' [= E]. run_given.
    destruct (truthy v); run_cbn; apply drop_appended.
  - try (destruct (nullish (body req)) eqn:Hb; [discriminate |]).
    intros e s' [= E]. run_given.
    destruct e as [err|text|raised]; run_cbn;
      rewrite ?drop_appended, ?drop_nothing_new; split; reflexivity.
  - first [ discriminate
          | destruct (nullish (body req)) eqn:Hb; [| discriminate];
            intros _; run_given; reflexivity ].
  - unfold_run.
    try (by_cases_on_body (body req) w;
         [cbn; rewrite drop_appended;
          apply List.Forall_cons; [auto | apply List.Forall_nil] |]).
    by_cases_on_answer;
      rewrite ?drop_appended, ?drop_nothing_new;
      first [ apply List.Forall_nil
            | apply List.Forall_cons; [auto | apply List.Forall_nil] ].
Qed.

(** X6: what a handler writes to the console.  Nothing when the model
    answers with a value or never settles, except that [todos] writes its
    line when [res.json] cannot serialise the value.  When the model
    throws, [todos] writes a fixed line that says nothing of the error;
    the other three write their prefix followed by the text of the thrown
    value, and nothing at all when its conversion to a string throws. *)
Theorem console_logs_only_caught_errors op req w :
  (forall v s', model_answer op req w = Some (Fulfilled v, s') ->
                console_of (handler op req) w =
                match op with
                | Todos =>
                    if serialisable v then []
                    else ["Erro ao acessar listagem de livros"]
                | _ => []
                end)
  /\ (forall s', model_answer op req w = Some (Pending, s') ->
                 console_of (handler op req) w = [])
  /\ (forall e s', model_answer op req w = Some (Rejected e, s') ->
                   console_of (handler op req) w =
                   match op, string_form e with
                   | Todos, _ => ["Erro ao acessar listagem de livros"]
                   | Novo, inl text =>
                       ["Erro ao cadastrar um livro. " +:+ text]
                   | Remover, inl text =>
                       ["Erro ao remover um livro. " +:+ text]
                   | Atualizar, inl text =>
                       ["Erro ao atualizar um livro. " +:+ text]
                   | _, inr _ => []
                   end).
Proof.
  unfold model_answer, console_of.
  destruct op; unfold_run;
    try (by_cases_on_body (body req) w);
    try by_cases_on_answer;
    run_cbn;
    rewrite ?drop_appended, ?drop_nothing_new;
    repeat split; intros;
    repeat match goal with
           | Hx : Some _ = Some _ |- _ => injection Hx as Hx; subst
           | Hx : (_, _) = (_, _) |- _ => injection Hx as ?; subst
           end;
    first [ discriminate
          | match goal with Hv : serialisable _ = _ |- _ => rewrite Hv end;
            reflexivity
          | reflexivity
          | congruence ].
Qed.

(** X7: what a handler does depends on the request only through what it
    reads.  [todos] reads nothing; [remover] reads the number parsed from
    [idlivro], the body not at all; [novo] reads the nine fields of a
    readable body, [atualizar] those and the number parsed from [idLivro]:
    requests that agree on these are handled identically, whatever else
    the body or the parameters hold. *)
Theorem handlers_read_only_their_inputs req req' w :
  todos req w = todos req' w
  /\ (parseInt (params req !! "idlivro")
      = parseInt (params req' !! "idlivro") ->
      remover req w = remover req' w)
  /\ (nullish (body req) = false -> nullish (body req') = false ->
      entity_of (body req) = entity_of (body req') ->
      novo req w = novo req' w
      /\ (parseInt (params req !! "idLivro")
          = parseInt (params req' !! "idLivro") ->
          atualizar req w = atualizar req' w)).
Proof.
  split; [reflexivity |].
  split.
  - intros E. unfold remover. rewrite E. reflexivity.
  - intros Hb Hb' E. split.
    + unfold_run.
      rewrite (Livro_from_readable _ _ Hb), (Livro_from_readable _ _ Hb'), E.
      reflexivity.
    + intros Ep. unfold_run.
      rewrite (Livro_from_readable _ _ Hb), (Livro_from_readable _ _ Hb'),
        E, Ep.
      reflexivity.
Qed.





End Beyond.

(** ** The further properties on concrete invocations *)

(** X1 at a model that never answers a delete. *)
Lemma completion_matches_responses_witness :
  completion_of (remover (model:=scripted)
                   (MkRequest JUndefined {[ "idlivro" := "7" ]}))
                (world_answering Pending)
  = Pending
  /\ responses_of (remover (model:=scripted)
                     (MkRequest JUndefined {[ "idlivro" := "7" ]}))
                  (world_answering Pending)
     = [].
Proof.
  destruct (completion_matches_responses (model:=scripted) Remover
              (MkRequest JUndefined {[ "idlivro" := "7" ]})
              (world_answering Pending))
    as (_ & Hnone & Hpending & _).
  assert (Hc : completion_of
                 (handler (model:=scripted) Remover
                    (MkRequest JUndefined {[ "idlivro" := "7" ]}))
                 (world_answering Pending) = Pending).
  { apply Hpending. exists Pending. reflexivity. }
  split; [exact Hc |].
  apply Hnone. rewrite Hc. discriminate.
Defined.

(** X2 at a create request that arrives with no parsed body. *)
Lemma unreadable_body_stops_before_model_witness :
  calls_of (novo (model:=scripted) (MkRequest JUndefined ∅))
           (world_answering (Fulfilled (JBool true)))
  = []
  /\ console_of (novo (model:=scripted) (MkRequest JUndefined ∅))
                (world_answering (Fulfilled (JBool true)))
     = ["Erro ao cadastrar um livro. TypeError: Cannot read properties of undefined (reading 'titulo')"].
Proof.
  destruct (unreadable_body_stops_before_model (model:=scripted)
              (MkRequest JUndefined ∅)
              (world_answering (Fulfilled (JBool true))))
    as ((Hcalls & _ & Hlog & _) & _); [reflexivity |].
  split; [exact Hcalls | exact Hlog].
Defined.

(** X4 at a delete answered with the number 0, a false value that is not
    [false] itself. *)
Lemma remover_three_outcomes_witness :
  responses_of (remover (model:=scripted)
                  (MkRequest JUndefined {[ "idlivro" := "7" ]}))
               (world_answering (Fulfilled (JNum (Number 0))))
  = [(400, mensagem "Erro ao remover o livro. Entre em contato com o administrador do sistema.")].
Proof.
  destruct (remover_three_outcomes (model:=scripted)
              (MkRequest JUndefined {[ "idlivro" := "7" ]})
              (world_answering (Fulfilled (JNum (Number 0)))))
    as (Hanswer & _).
  apply (Hanswer (JNum (Number 0)) (Fulfilled (JNum (Number 0)))).
  reflexivity.
Defined.

(** X5 at an update answered with [true], and at one whose model throws
    an Error. *)
Lemma atualizar_three_outcomes_witness :
  responses_of (atualizar (model:=scripted)
                  (MkRequest sample_body {[ "idLivro" := "3" ]}))
               (world_answering (Fulfilled (JBool true)))
  = [(200, mensagem "O Livro foi atualizado com sucesso!")]
  /\ responses_of (atualizar (model:=scripted)
                     (MkRequest sample_body {[ "idLivro" := "3" ]}))
                  (world_answering (Rejected db_down))
     = [(400, mensagem "Não foi possivel atualizar o livro.Entre em contato com o administrador do sistema")].
Proof.
  split.
  - destruct (atualizar_three_outcomes (model:=scripted)
                (MkRequest sample_body {[ "idLivro" := "3" ]})
                (world_answering (Fulfilled (JBool true))))
      as (Hanswer & _).
    apply (Hanswer (JBool true) (Fulfilled (JBool true))). reflexivity.
  - destruct (atualizar_three_outcomes (model:=scripted)
                (MkRequest sample_body {[ "idLivro" := "3" ]})
                (world_answering (Rejected db_down)))
      as (_ & Hthrown & _).
    apply (Hthrown db_down (Rejected db_down)). reflexivity.
Defined.

(** X11 at the spec's example body: [true], [false], a thrown Error, and
    a thrown Symbol. *)
Lemma novo_outcomes_witness :
  responses_of (novo (model:=scripted) (MkRequest sample_body ∅))
               (world_answering (Fulfilled (JBool true)))
  = [(200, mensagem "Livro cadastrado com sucesso!")]
  /\ responses_of (novo (model:=scripted) (MkRequest sample_body ∅))
                  (world_answering (Fulfilled (JBool false)))
     = [(400, mensagem "Erro ao cadastrar o livro. Entre em contato com o administrador do sistema.")]
  /\ responses_of (novo (model:=scripted) (MkRequest sample_body ∅))
                  (world_answering (Rejected db_down))
     = [(400, mensagem "Não foi possível cadastrar o livro. Entre em contato com o administrador do sistema.")]
  /\ responses_of (novo (model:=scripted) (MkRequest sample_body ∅))
                  (world_answering (Rejected thrown_Symbol))
     = [].
Proof.
  split; [| split; [| split]].
  - destruct (novo_outcomes (model:=scripted) (MkRequest sample_body ∅)
                (world_answering (Fulfilled (JBool true))))
      as (Hanswer & _).
    apply (Hanswer (JBool true) (Fulfilled (JBool true))). reflexivity.
  - destruct (novo_outcomes (model:=scripted) (MkRequest sample_body ∅)
                (world_answering (Fulfilled (JBool false))))
      as (Hanswer & _).
    apply (Hanswer (JBool false) (Fulfilled (JBool false))). reflexivity.
  - destruct (novo_outcomes (model:=scripted) (MkRequest sample_body ∅)
                (world_answering (Rejected db_down)))
      as (_ & Hthrown & _).
    apply (Hthrown db_down (Rejected db_down)). reflexivity.
  - destruct (novo_outcomes (model:=scripted) (MkRequest sample_body ∅)
                (world_answering (Rejected thrown_Symbol)))
      as (_ & Hthrown & _).
    apply (Hthrown thrown_Symbol (Rejected thrown_Symbol)). reflexivity.
Defined.

(** X6 at a listing and at a delete whose model throws an Error, and at
    a listing that resolves with a BigInt. *)
Lemma console_logs_only_caught_errors_witness :
  console_of (todos (model:=scripted) (MkRequest JUndefined ∅))
             (world_answering (Rejected db_down))
  = ["Erro ao acessar listagem de livros"]
  /\ console_of (remover (model:=scripted)
                   (MkRequest JUndefined {[ "idlivro" := "7" ]}))
                (world_answering (Rejected db_down))
     = ["Erro ao remover um livro. Error: connect ECONNREFUSED"]
  /\ console_of (todos (model:=scripted) (MkRequest JUndefined ∅))
                (world_answering (Fulfilled (JBigInt 10)))
     = ["Erro ao acessar listagem de livros"].
Proof.
  split; [| split].
  - destruct (console_logs_only_caught_errors (model:=scripted) Todos
                (MkRequest JUndefined ∅)
                (world_answering (Rejected db_down)))
      as (_ & _ & Hthrown).
    apply (Hthrown db_down (Rejected db_down)). reflexivity.
  - destruct (console_logs_only_caught_errors (model:=scripted) Remover
                (MkRequest JUndefined {[ "idlivro" := "7" ]})
                (world_answering (Rejected db_down)))
      as (_ & _ & Hthrown).
    apply (Hthrown db_down (Rejected db_down)). reflexivity.
  - destruct (console_logs_only_caught_errors (model:=scripted) Todos
                (MkRequest JUndefined ∅)
                (world_answering (Fulfilled (JBigInt 10))))
      as (Hvalue & _).
    apply (Hvalue (JBigInt 10) (Fulfilled (JBigInt 10))). reflexivity.
Defined.

(** X7 at two deletes, [/7] with a body and [/ 7px] without one. *)
Lemma handlers_read_only_their_inputs_witness :
  remover (model:=scripted)
          (MkRequest sample_body {[ "idlivro" := "7" ]})
          (world_answering (Fulfilled (JBool true)))
  = remover (model:=scripted)
            (MkRequest JUndefined {[ "idlivro" := " 7px" ]})
            (world_answering (Fulfilled (JBool true))).
Proof.
  destruct (handlers_read_only_their_inputs (model:=scripted)
              (MkRequest sample_body {[ "idlivro" := "7" ]})
              (MkRequest JUndefined {[ "idlivro" := " 7px" ]})
              (world_answering (Fulfilled (JBool true))))
    as (_ & Hdel & _).
  apply Hdel. vm_compute. reflexivity.
Defined.



